(** * print_knights: the ASCII board renderer of Part2/print_knights.py

    The script builds a [B] x [B] character board ([B = 4 * N + 5]) cell by
    cell, appends every cell to the current text row as well, and prints each
    row.  The development below embeds the script as a program in a small
    state-and-exception monad, derives a closed form for its final state, and
    proves the properties of the printed grid from that closed form. *)

From Stdlib Require Import ZArith String Ascii Lia.
From stdpp Require Import base list.

Local Open Scope Z_scope.

(** ** Python values and run-time state *)

(** The two run-time errors the statements of the script can raise: [%] and
    [//] by zero, and a list store outside the list. *)
Inductive exn : Type :=
  | ZeroDivisionError
  | IndexError.

(** The variables of the module and its standard output.  [board] is the list
    of lists built by the comprehension (every inner list is a fresh object, so
    rows do not alias), [row] the text accumulated for the current line,
    [stdout] the lines written by [print], oldest first.  [stores] is
    instrumentation: the history of board positions stored to, oldest first. *)
Record state : Type := mkState {
  board : list (list (option string));
  row : string;
  stdout : list string;
  stores : list (nat * nat)
}.

Inductive outcome (A : Type) : Type :=
  | Done (a : A) (s : state)
  | Raised (e : exn) (s : state).
Arguments Done {A} a s.
Arguments Raised {A} e s.

Definition M (A : Type) : Type := state -> outcome A.

Definition ret {A} (a : A) : M A := fun s => Done a s.

Definition bind {A B} (m : M A) (k : A -> M B) : M B :=
  fun s =>
    match m s with
    | Done a s' => k a s'
    | Raised e s' => Raised e s'
    end.

Notation "x <- m ;; k" := (bind m (fun x => k))
  (at level 62, m at level 50, right associativity).
Notation "m ;;; k" := (bind m (fun _ => k))
  (at level 62, right associativity).

(** [a % b] and [a // b] on Python integers: floor division, the remainder
    takes the sign of the divisor, and a zero divisor raises. *)
Definition py_mod (a b : Z) : M Z :=
  fun s => if b =? 0 then Raised ZeroDivisionError s else Done (a mod b) s.

Definition py_floordiv (a b : Z) : M Z :=
  fun s => if b =? 0 then Raised ZeroDivisionError s else Done (a / b) s.

(** [x and y]: [y] is evaluated only when [x] is true. *)
Definition py_and (x y : M bool) : M bool :=
  b <- x ;; if b then y else ret false.

(** [range(n)]: [0, 1, ..., n - 1], empty when [n <= 0]. *)
Definition range (n : Z) : list Z := seqZ 0 n.

(** Position of subscript [i] in a list of length [len]; negative subscripts
    count from the end, anything else is out of range. *)
Definition py_index (len : nat) (i : Z) : option nat :=
  if (0 <=? i) && (i <? Z.of_nat len) then Some (Z.to_nat i)
  else if (- Z.of_nat len <=? i) && (i <? 0) then Some (Z.to_nat (Z.of_nat len + i))
  else None.

(** [board[r][c] = v]. *)
Definition board_store (r c : Z) (v : string) : M unit :=
  fun s =>
    match py_index (length (board s)) r with
    | None => Raised IndexError s
    | Some i =>
        match board s !! i with
        | None => Raised IndexError s
        | Some cells =>
            match py_index (length cells) c with
            | None => Raised IndexError s
            | Some j =>
                Done tt {| board := <[i := <[j := Some v]> cells]> (board s);
                           row := row s;
                           stdout := stdout s;
                           stores := stores s ++ [(i, j)] |}
            end
        end
    end.

(** [board = b]. *)
Definition set_board (b : list (list (option string))) : M unit :=
  fun s => Done tt {| board := b; row := row s; stdout := stdout s; stores := stores s |}.

(** [row = v]. *)
Definition set_row (v : string) : M unit :=
  fun s => Done tt {| board := board s; row := v; stdout := stdout s; stores := stores s |}.

(** [row += v]. *)
Definition row_append (v : string) : M unit :=
  fun s => Done tt {| board := board s; row := (row s ++ v)%string;
                      stdout := stdout s; stores := stores s |}.

(** [print(row)]: one more line on standard output. *)
Definition print_row : M unit :=
  fun s => Done tt {| board := board s; row := row s;
                      stdout := stdout s ++ [row s]; stores := stores s |}.

(** [for x in xs: body]. *)
Fixpoint for_ (xs : list Z) (body : Z -> M unit) : M unit :=
  match xs with
  | [] => ret tt
  | x :: xs' => body x ;;; for_ xs' body
  end.

(** ** The script *)

(** The body of the inner loop (lines 7-24 of the script). *)
Definition cell_stmt (N r c : Z) : M unit :=
  rm <- py_mod r (N + 1) ;;
  if rm =? 0 then
    cm <- py_mod c (N + 1) ;;
    if cm >? 0 then
      board_store r c "-" ;;; row_append "-"
    else
      board_store r c "+" ;;; row_append "+"
  else
    cm <- py_mod c (N + 1) ;;
    if cm =? 0 then
      board_store r c "|" ;;; row_append "|"
    else
      b <- py_and (rd <- py_floordiv r (N + 1) ;; ret (rd =? 3))
                  (cd <- py_floordiv c (N + 1) ;; ret (cd =? 0)) ;;
      if b then
        board_store r c "N" ;;; row_append "N"
      else
        board_store r c " " ;;; row_append " ".

(** The body of the outer loop (lines 5-27): one row built and printed. *)
Definition row_stmt (N B r : Z) : M unit :=
  set_row EmptyString ;;;
  for_ (range B) (fun c => cell_stmt N r c) ;;;
  print_row.

(** The whole module, as a function of the constant [N]. *)
Definition render (N : Z) : M unit :=
  let B := 4 * N + 5 in
  set_board ((fun _ => (fun _ => None) <$> range B) <$> range B) ;;;
  for_ (range B) (fun r => row_stmt N B r).

(** The constant as the script sets it, and the script. *)
Definition N_src : Z := 2.
Definition main : M unit := render N_src.

(** The state a fresh interpreter starts the module in. *)
Definition init : state :=
  {| board := []; row := EmptyString; stdout := []; stores := [] |}.

(** The lines a run leaves on standard output, when it completes. *)
Definition printed (N : Z) : option (list string) :=
  match render N init with
  | Done _ s => Some (stdout s)
  | Raised _ _ => None
  end.


(** ** Closed form of a run *)

(** The character the inner-loop body selects for cell [(r, c)]: the branch
    conditions of [cell_stmt], read off for a non-zero divisor. *)
Definition cell_char (N r c : Z) : ascii :=
  if r mod (N + 1) =? 0 then
    if c mod (N + 1) >? 0 then "-" else "+"
  else if c mod (N + 1) =? 0 then "|"
  else if (r / (N + 1) =? 3) && (c / (N + 1) =? 0) then "N"
  else " ".

(** The one-character string stored in the board and appended to [row]. *)
Definition cell_text (N r c : Z) : string := String (cell_char N r c) EmptyString.

(** Cells [c0, c0 + 1, ...] of row [r], as characters and as the strings
    stored in the board. *)
Definition row_chars (N r : Z) (cs : list Z) : list ascii := cell_char N r <$> cs.
Definition row_cells (N r : Z) (cs : list Z) : list (option string) :=
  (fun c => Some (cell_text N r c)) <$> cs.

(** Line [r] of the grid, the whole grid and the whole board for extent [B]. *)
Definition line (N B r : Z) : string := string_of_list_ascii (row_chars N r (range B)).
Definition grid (N : Z) : list string := line N (4 * N + 5) <$> range (4 * N + 5).
Definition full_board (N : Z) : list (list (option string)) :=
  (fun r => row_cells N r (range (4 * N + 5))) <$> range (4 * N + 5).

(** Board positions in the order the loops visit them. *)
Definition row_major (rows cols : nat) : list (nat * nat) :=
  seq 0 rows ≫= (fun i => pair i <$> seq 0 cols).

(** ** Reading the output *)

(** The character at line [r], column [c] of an output, if there is one. *)
Definition char_at (out : list string) (r c : Z) : option ascii :=
  if (0 <=? r) && (0 <=? c) then
    match out !! Z.to_nat r with
    | Some l => String.get (Z.to_nat c) l
    | None => None
    end
  else None.

(** Occurrences of a character in a line, and of the marker in an output. *)
Fixpoint count_char (ch : ascii) (l : string) : nat :=
  match l with
  | EmptyString => 0
  | String a l' => ((if Ascii.eqb a ch then 1 else 0) + count_char ch l')%nat
  end.

Definition marker_count (out : list string) : nat :=
  sum_list_with (count_char "N") out.

(** [''.join(cells)]. *)
Definition join (cells : list string) : string := foldr String.append EmptyString cells.

(** The per-cell rule as the specification words it (section 4.1). *)
Definition rule_4_1 (N r c : Z) : ascii :=
  if r mod (N + 1) =? 0 then
    if c mod (N + 1) =? 0 then "+" else "-"
  else
    if c mod (N + 1) =? 0 then "|"
    else if (r / (N + 1) =? 3) && (c / (N + 1) =? 0) then "N"
    else " ".

(** A cell inside block-row 3, block-column 0, off the separators. *)
Definition marker_cell (N r c : Z) : Prop :=
  r mod (N + 1) <> 0 /\ c mod (N + 1) <> 0 /\ r / (N + 1) = 3 /\ c / (N + 1) = 0.

(** A run that stops on a division or modulo by zero. *)
Definition faults (N : Z) (s : state) : Prop :=
  exists s', render N s = Raised ZeroDivisionError s'.

(** A run that reaches the end of the module. *)
Definition completes (N : Z) (s : state) : Prop :=
  exists s', render N s = Done tt s'.

(** ['+'] then [n] dashes, four times, then a closing ['+']. *)
Definition separator_pattern (n : nat) : string :=
  let block := "+"%char :: replicate n "-"%char in
  string_of_list_ascii (block ++ block ++ block ++ block ++ ["+"%char]).

(** A content line: ['|'] then [n] cells, four times, then a closing ['|'];
    the cells of the first block are markers on a marked line, blanks
    otherwise, and the cells of the other blocks are blanks. *)
Definition content_pattern (n : nat) (marked : bool) : string :=
  let first := "|"%char :: replicate n (if marked then "N"%char else " "%char) in
  let block := "|"%char :: replicate n " "%char in
  string_of_list_ascii (first ++ block ++ block ++ block ++ ["|"%char]).

(** A band of the grid: a separator line over [n] equal content lines.  The
    grid in bands: three unmarked bands, the marked band, the closing
    separator line. *)
Definition band (n : nat) (marked : bool) : list string :=
  separator_pattern n :: replicate n (content_pattern n marked).
Definition banded_grid (n : nat) : list string :=
  band n false ++ band n false ++ band n false ++ band n true ++ [separator_pattern n].

(** Occurrences of a character in a whole output. *)
Definition char_count (ch : ascii) (out : list string) : nat :=
  sum_list_with (count_char ch) out.

(** ** The loops, run *)

Section Run.

Variable N : Z.
Hypothesis N_ok : N + 1 <> 0.

Lemma py_index_here (len i : nat) :
  (i < len)%nat -> py_index len (Z.of_nat i) = Some i.
Proof.
  intros Hlt. unfold py_index.
  replace (0 <=? Z.of_nat i) with true by (symmetry; apply Z.leb_le; lia).
  replace (Z.of_nat i <? Z.of_nat len) with true by (symmetry; apply Z.ltb_lt; lia).
  simpl. now rewrite Nat2Z.id.
Qed.

Lemma board_store_run (s : state) pre done x rest post v :
  board s = pre ++ (done ++ x :: rest) :: post ->
  board_store (Z.of_nat (length pre)) (Z.of_nat (length done)) v s =
  Done tt {| board := pre ++ (done ++ Some v :: rest) :: post;
             row := row s; stdout := stdout s;
             stores := stores s ++ [(length pre, length done)] |}.
Proof.
  intros Hb. unfold board_store. rewrite Hb.
  rewrite py_index_here by (rewrite length_app; simpl; lia).
  rewrite list_lookup_middle by reflexivity.
  rewrite py_index_here by (rewrite length_app; simpl; lia).
  do 2 f_equal.
  replace (length pre) with (length pre + 0)%nat at 1 by lia.
  rewrite insert_app_r. simpl. do 2 f_equal.
  replace (length done) with (length done + 0)%nat at 1 by lia.
  now rewrite insert_app_r.
Qed.

Lemma cell_stmt_run (s : state) pre done x rest post :
  board s = pre ++ (done ++ x :: rest) :: post ->
  cell_stmt N (Z.of_nat (length pre)) (Z.of_nat (length done)) s =
  Done tt {| board := pre ++ (done ++ Some (cell_text N (Z.of_nat (length pre))
                                                      (Z.of_nat (length done))) :: rest) :: post;
             row := (row s ++ cell_text N (Z.of_nat (length pre)) (Z.of_nat (length done)))%string;
             stdout := stdout s;
             stores := stores s ++ [(length pre, length done)] |}.
Proof.
  intros Hb.
  assert (Hz : (N + 1 =? 0) = false) by (apply Z.eqb_neq; exact N_ok).
  unfold cell_stmt, cell_text, cell_char, py_and, py_mod, py_floordiv, bind, ret.
  rewrite !Hz.
  destruct (_ mod _ =? 0); [destruct (_ mod _ >? 0) | destruct (_ mod _ =? 0)];
    try (rewrite (board_store_run s pre done x rest post _ Hb); reflexivity).
  destruct (_ / _ =? 3); simpl; [destruct (_ / _ =? 0) |];
    rewrite (board_store_run s pre done x rest post _ Hb); reflexivity.
Qed.

Lemma string_app_nil_r (a : string) : (a ++ EmptyString)%string = a.
Proof. induction a as [|ch a IH]; simpl; [reflexivity | now rewrite IH]. Qed.

Lemma string_app_assoc (a b c : string) : ((a ++ b) ++ c = a ++ (b ++ c))%string.
Proof. induction a as [|ch a IH]; simpl; [reflexivity | now rewrite IH]. Qed.

(** The inner loop over the columns not yet visited of row [length pre]. *)
Lemma inner_loop_run rest : forall (s : state) pre done post,
  board s = pre ++ (done ++ rest) :: post ->
  for_ (seqZ (Z.of_nat (length done)) (Z.of_nat (length rest)))
       (fun c => cell_stmt N (Z.of_nat (length pre)) c) s =
  Done tt {| board := pre ++ (done ++ row_cells N (Z.of_nat (length pre))
                        (seqZ (Z.of_nat (length done)) (Z.of_nat (length rest)))) :: post;
             row := (row s ++ string_of_list_ascii (row_chars N (Z.of_nat (length pre))
                        (seqZ (Z.of_nat (length done)) (Z.of_nat (length rest)))))%string;
             stdout := stdout s;
             stores := stores s ++ (pair (length pre) <$> seq (length done) (length rest)) |}.
Proof.
  induction rest as [|x rest IH]; intros s pre done post Hb.
  - rewrite seqZ_nil by reflexivity. simpl. unfold ret.
    rewrite <- Hb, string_app_nil_r, app_nil_r. now destruct s.
  - rewrite seqZ_cons by (simpl; lia). simpl for_. unfold bind at 1.
    rewrite (cell_stmt_run s pre done x rest post Hb).
    set (v := Some (cell_text N (Z.of_nat (length pre)) (Z.of_nat (length done)))).
    match goal with |- for_ _ _ ?s1 = _ =>
      specialize (IH s1 pre (done ++ [v]) post) end.
    simpl board in IH. rewrite <- app_assoc in IH. specialize (IH eq_refl).
    rewrite length_app in IH. simpl length in IH.
    replace (Z.of_nat (length done + 1)) with (Z.succ (Z.of_nat (length done))) in IH by lia.
    simpl length.
    replace (Z.pred (Z.of_nat (S (length rest)))) with (Z.of_nat (length rest)) by lia.
    rewrite IH. simpl. unfold row_cells, row_chars.
    rewrite string_app_assoc, <- !app_assoc. simpl.
    rewrite Nat.add_1_r. reflexivity.
Qed.

(** One pass of the outer loop on row [length pre], which has [n] cells. *)
Lemma row_stmt_run (n : nat) (s : state) pre cells post :
  board s = pre ++ cells :: post ->
  length cells = n ->
  row_stmt N (Z.of_nat n) (Z.of_nat (length pre)) s =
  Done tt {| board := pre ++ row_cells N (Z.of_nat (length pre)) (range (Z.of_nat n)) :: post;
             row := line N (Z.of_nat n) (Z.of_nat (length pre));
             stdout := stdout s ++ [line N (Z.of_nat n) (Z.of_nat (length pre))];
             stores := stores s ++ (pair (length pre) <$> seq 0 n) |}.
Proof.
  intros Hb Hn. unfold row_stmt, set_row, print_row, bind.
  match goal with |- match for_ _ _ ?s1 with _ => _ end = _ =>
    pose proof (inner_loop_run cells s1 pre [] post Hb) as Hin end.
  simpl in Hin. rewrite Hn in Hin. change (Z.of_nat 0) with 0 in Hin.
  unfold range. rewrite Hin. reflexivity.
Qed.

(** The outer loop over the rows not yet visited; every such row has [n]
    cells. *)
Lemma outer_loop_run (n : nat) post : forall (s : state) pre,
  board s = pre ++ post ->
  Forall (fun cells => length cells = n) post ->
  exists rw,
    for_ (seqZ (Z.of_nat (length pre)) (Z.of_nat (length post)))
         (fun r => row_stmt N (Z.of_nat n) r) s =
    Done tt {| board := pre ++ ((fun r => row_cells N r (range (Z.of_nat n))) <$>
                                seqZ (Z.of_nat (length pre)) (Z.of_nat (length post)));
               row := rw;
               stdout := stdout s ++ (line N (Z.of_nat n) <$>
                                      seqZ (Z.of_nat (length pre)) (Z.of_nat (length post)));
               stores := stores s ++
                 (seq (length pre) (length post) ≫= (fun i => pair i <$> seq 0 n)) |}.
Proof.
  induction post as [|cells post IH]; intros s pre Hb Hlen.
  - exists (row s). rewrite seqZ_nil by reflexivity. simpl. unfold ret.
    rewrite <- Hb, !app_nil_r. now destruct s.
  - apply Forall_cons in Hlen as [Hn Hlen].
    rewrite seqZ_cons by (simpl; lia). simpl for_. unfold bind at 1.
    rewrite (row_stmt_run n s pre cells post Hb Hn).
    set (cells' := row_cells N (Z.of_nat (length pre)) (range (Z.of_nat n))).
    match goal with |- exists _, for_ _ _ ?s2 = _ =>
      destruct (IH s2 (pre ++ [cells'])) as [rw Hrw];
        [simpl; now rewrite <- app_assoc | exact Hlen |] end.
    exists rw. rewrite length_app in Hrw. simpl length in Hrw.
    replace (Z.of_nat (length pre + 1)) with (Z.succ (Z.of_nat (length pre))) in Hrw by lia.
    simpl length.
    replace (Z.pred (Z.of_nat (S (length post)))) with (Z.of_nat (length post)) by lia.
    rewrite Hrw. simpl.
    rewrite <- !app_assoc. simpl. rewrite Nat.add_1_r. reflexivity.
Qed.

Lemma range_of_nat (b : Z) : range b = range (Z.of_nat (Z.to_nat b)).
Proof. unfold range, seqZ. now rewrite Nat2Z.id. Qed.

(** A run of the module from any state completes: it leaves the closed-form
    board, appends the grid to standard output, and has stored to every
    position once, in row-major order. *)
Lemma render_run (s : state) :
  exists rw,
    render N s =
    Done tt {| board := full_board N;
               row := rw;
               stdout := stdout s ++ grid N;
               stores := stores s ++ row_major (Z.to_nat (4 * N + 5)) (Z.to_nat (4 * N + 5)) |}.
Proof.
  unfold render, full_board, grid, row_major, row_stmt, line.
  rewrite (range_of_nat (4 * N + 5)).
  set (n := Z.to_nat (4 * N + 5)).
  set (b0 := (fun _ : Z => (fun _ : Z => @None string) <$> range (Z.of_nat n)) <$> range (Z.of_nat n)).
  set (s0 := {| board := b0; row := row s; stdout := stdout s; stores := stores s |}).
  assert (Hl : length b0 = n).
  { unfold b0, range. rewrite length_fmap, length_seqZ. lia. }
  destruct (outer_loop_run n b0 s0 [] eq_refl) as [rw Hrw].
  { unfold b0. apply Forall_fmap, Forall_forall. intros r _. simpl.
    unfold range. rewrite length_fmap, length_seqZ. lia. }
  exists rw. unfold bind at 1, set_board. fold s0.
  simpl in Hrw. rewrite Hl in Hrw. change (Z.of_nat 0) with 0 in Hrw.
  unfold row_stmt, line in Hrw. exact Hrw.
Qed.

End Run.

(** The script as it stands, run. *)
Example main_prints :
  printed 2 = Some [ "+--+--+--+--+"; "|  |  |  |  |"; "|  |  |  |  |";
                     "+--+--+--+--+"; "|  |  |  |  |"; "|  |  |  |  |";
                     "+--+--+--+--+"; "|  |  |  |  |"; "|  |  |  |  |";
                     "+--+--+--+--+"; "|NN|  |  |  |"; "|NN|  |  |  |";
                     "+--+--+--+--+" ]%string.
Proof. vm_compute. reflexivity. Qed.

(** ** Facts about strings built from character lists *)

Lemma length_string_of_list_ascii (l : list ascii) :
  String.length (string_of_list_ascii l) = length l.
Proof. induction l as [|a l IH]; simpl; [reflexivity | now rewrite IH]. Qed.

Lemma get_string_of_list_ascii (l : list ascii) : forall i,
  String.get i (string_of_list_ascii l) = l !! i.
Proof.
  induction l as [|a l IH]; intros [|i]; simpl; try reflexivity. apply IH.
Qed.

Lemma count_char_chars_app ch (l1 l2 : list ascii) :
  count_char ch (string_of_list_ascii (l1 ++ l2)) =
  (count_char ch (string_of_list_ascii l1) + count_char ch (string_of_list_ascii l2))%nat.
Proof. induction l1 as [|a l1 IH]; simpl; [reflexivity | rewrite IH; lia]. Qed.

Lemma count_char_all {A} ch (f : A -> ascii) (l : list A) :
  Forall (fun x => f x = ch) l ->
  count_char ch (string_of_list_ascii (f <$> l)) = length l.
Proof.
  induction 1 as [|x l Hx _ IH]; [reflexivity |].
  rewrite fmap_cons. cbn [string_of_list_ascii count_char length].
  rewrite Hx, Ascii.eqb_refl, IH. reflexivity.
Qed.

Lemma count_char_none {A} ch (f : A -> ascii) (l : list A) :
  Forall (fun x => f x <> ch) l ->
  count_char ch (string_of_list_ascii (f <$> l)) = 0%nat.
Proof.
  induction 1 as [|x l Hx _ IH]; [reflexivity |].
  rewrite fmap_cons. cbn [string_of_list_ascii count_char].
  destruct (Ascii.eqb_spec (f x) ch); [contradiction | exact IH].
Qed.

Lemma sum_list_with_const {A B} (g : B -> nat) (f : A -> B) (k : nat) (l : list A) :
  Forall (fun x => g (f x) = k) l -> sum_list_with g (f <$> l) = (length l * k)%nat.
Proof.
  induction 1 as [|x l Hx _ IH]; [reflexivity |].
  rewrite fmap_cons. change (sum_list_with g (f x :: (f <$> l)))
    with (g (f x) + sum_list_with g (f <$> l))%nat.
  rewrite Hx, IH. simpl. lia.
Qed.

Lemma join_texts (f : Z -> ascii) (cs : list Z) :
  join ((fun c => String (f c) EmptyString) <$> cs) = string_of_list_ascii (f <$> cs).
Proof.
  induction cs as [|c cs IH]; [reflexivity |].
  rewrite !fmap_cons. cbn [join foldr string_of_list_ascii].
  fold (join ((fun c => String (f c) EmptyString) <$> cs)). now rewrite IH.
Qed.

(** ** Facts about the grid *)

Lemma printed_grid (N : Z) : N + 1 <> 0 -> printed N = Some (grid N).
Proof.
  intros HN. unfold printed. destruct (render_run N HN init) as [rw ->]. reflexivity.
Qed.

Lemma length_grid (N : Z) : length (grid N) = Z.to_nat (4 * N + 5).
Proof. unfold grid, range. now rewrite length_fmap, length_seqZ. Qed.

Lemma lookup_grid (N r : Z) :
  0 <= r < 4 * N + 5 -> grid N !! Z.to_nat r = Some (line N (4 * N + 5) r).
Proof.
  intros Hr. unfold grid, range. rewrite list_lookup_fmap, lookup_seqZ_lt by lia.
  simpl. do 2 f_equal. lia.
Qed.

Lemma length_line (N B r : Z) : String.length (line N B r) = Z.to_nat B.
Proof.
  unfold line, row_chars, range.
  now rewrite length_string_of_list_ascii, length_fmap, length_seqZ.
Qed.

Lemma get_line (N B r c : Z) :
  0 <= c < B -> String.get (Z.to_nat c) (line N B r) = Some (cell_char N r c).
Proof.
  intros Hc. unfold line, row_chars, range.
  rewrite get_string_of_list_ascii, list_lookup_fmap, lookup_seqZ_lt by lia.
  simpl. do 2 f_equal. lia.
Qed.

Lemma chars_line (N B r : Z) :
  list_ascii_of_string (line N B r) = cell_char N r <$> range B.
Proof. unfold line, row_chars. apply list_ascii_of_string_of_list_ascii. Qed.

Lemma char_at_grid (N r c : Z) :
  0 <= r < 4 * N + 5 -> 0 <= c < 4 * N + 5 ->
  char_at (grid N) r c = Some (cell_char N r c).
Proof.
  intros Hr Hc. unfold char_at.
  replace (0 <=? r) with true by (symmetry; apply Z.leb_le; lia).
  replace (0 <=? c) with true by (symmetry; apply Z.leb_le; lia).
  simpl. rewrite lookup_grid by lia. now apply get_line.
Qed.

Lemma char_at_grid_inv (N r c : Z) ch :
  char_at (grid N) r c = Some ch ->
  0 <= r < 4 * N + 5 /\ 0 <= c < 4 * N + 5 /\ ch = cell_char N r c.
Proof.
  unfold char_at. intros H.
  destruct (Z.leb_spec 0 r) as [Hr|]; [|discriminate].
  destruct (Z.leb_spec 0 c) as [Hc|]; [|discriminate]. simpl in H.
  destruct (grid N !! Z.to_nat r) as [l|] eqn:Hl; [|discriminate].
  apply lookup_lt_Some in Hl as Hlt. rewrite length_grid in Hlt.
  assert (Hr' : 0 <= r < 4 * N + 5) by lia.
  rewrite lookup_grid in Hl by exact Hr'. injection Hl as <-.
  assert (Hc' : 0 <= c < 4 * N + 5).
  { destruct (Z.lt_ge_cases c (4 * N + 5)) as [|Hge]; [lia|]. exfalso.
    unfold line, row_chars in H. rewrite get_string_of_list_ascii in H.
    apply lookup_lt_Some in H. unfold range in H.
    rewrite length_fmap, length_seqZ in H. lia. }
  rewrite get_line in H by exact Hc'. injection H as <-. auto.
Qed.

(** ** Arithmetic of the per-cell rule *)

Section Rule.

Variable N : Z.
Hypothesis N_nonneg : 0 <= N.

(** With a positive divisor the code's test [c % (N + 1) > 0] is the negation
    of the specification's [c mod (N + 1) == 0]. *)
Lemma cell_char_rule (r c : Z) : cell_char N r c = rule_4_1 N r c.
Proof.
  unfold cell_char, rule_4_1.
  destruct (r mod (N + 1) =? 0); [|reflexivity].
  pose proof (Z.mod_pos_bound c (N + 1)) as Hm.
  destruct (Z.eqb_spec (c mod (N + 1)) 0) as [->|Hne]; [reflexivity|].
  replace (c mod (N + 1) >? 0) with true; [reflexivity|].
  symmetry. apply Z.gtb_lt. lia.
Qed.

Lemma cell_char_marker (r c : Z) : cell_char N r c = "N"%char <-> marker_cell N r c.
Proof.
  unfold cell_char, marker_cell.
  destruct (Z.eqb_spec (r mod (N + 1)) 0) as [Hr|Hr].
  { split; [destruct (_ >? _); discriminate | tauto]. }
  destruct (Z.eqb_spec (c mod (N + 1)) 0) as [Hc|Hc].
  { split; [discriminate | tauto]. }
  destruct (Z.eqb_spec (r / (N + 1)) 3) as [Hr3|Hr3]; simpl.
  - destruct (Z.eqb_spec (c / (N + 1)) 0) as [Hc0|Hc0];
      (split; [try discriminate; tauto | tauto]).
  - split; [discriminate | tauto].
Qed.

(** The marker block in coordinates: rows [3N + 4 .. 4N + 3], columns
    [1 .. N]. *)
Lemma marker_cell_range (r c : Z) :
  marker_cell N r c <-> 3 * N + 3 < r < 4 * N + 4 /\ 0 < c < N + 1.
Proof.
  unfold marker_cell.
  pose proof (Z.div_mod r (N + 1)) as Hr. pose proof (Z.mod_pos_bound r (N + 1)) as Hrb.
  pose proof (Z.div_mod c (N + 1)) as Hc. pose proof (Z.mod_pos_bound c (N + 1)) as Hcb.
  split.
  - intros (Hr0 & Hc0 & Hr3 & Hc3). rewrite Hr3 in Hr. rewrite Hc3 in Hc. lia.
  - intros [Hrr Hcc].
    assert (Hr3 : r / (N + 1) = 3).
    { symmetry. apply (Z.div_unique r (N + 1) 3 (r - 3 * (N + 1))); lia. }
    assert (Hc3 : c / (N + 1) = 0) by (apply Z.div_small; lia).
    rewrite Hr3 in Hr. rewrite Hc3 in Hc. repeat split; lia.
Qed.

Lemma cell_char_separator (r c : Z) :
  r mod (N + 1) = 0 -> cell_char N r c = "+"%char \/ cell_char N r c = "-"%char.
Proof.
  intros Hr. unfold cell_char. rewrite Hr. simpl.
  destruct (_ >? _); [right | left]; reflexivity.
Qed.

Lemma cell_char_border (r c : Z) :
  r mod (N + 1) <> 0 -> c mod (N + 1) = 0 -> cell_char N r c = "|"%char.
Proof.
  intros Hr Hc. unfold cell_char. rewrite Hc.
  destruct (Z.eqb_spec (r mod (N + 1)) 0); [contradiction | reflexivity].
Qed.

(** Markers per line: [N] on the lines of the marker block, none elsewhere. *)
Lemma count_line_marker (r : Z) :
  3 * N + 3 < r < 4 * N + 4 ->
  count_char "N" (line N (4 * N + 5) r) = Z.to_nat N.
Proof.
  intros Hr. unfold line, row_chars, range.
  replace (4 * N + 5) with (1 + (N + (3 * N + 4))) by lia.
  rewrite seqZ_app, seqZ_app by lia. rewrite !fmap_app, !count_char_chars_app.
  rewrite (count_char_none _ _ (seqZ 0 1)), (count_char_all _ _ (seqZ (0 + 1) N)),
    (count_char_none _ _ (seqZ (0 + 1 + N) (3 * N + 4))).
  - rewrite length_seqZ. lia.
  - apply Forall_seqZ. intros c Hc Heq.
    apply cell_char_marker, marker_cell_range in Heq. lia.
  - apply Forall_seqZ. intros c Hc.
    apply cell_char_marker, marker_cell_range. lia.
  - apply Forall_seqZ. intros c Hc Heq.
    apply cell_char_marker, marker_cell_range in Heq. lia.
Qed.

Lemma count_line_plain (B r : Z) :
  ~ (3 * N + 3 < r < 4 * N + 4) -> count_char "N" (line N B r) = 0%nat.
Proof.
  intros Hr. unfold line, row_chars, range. apply count_char_none.
  apply Forall_seqZ. intros c Hc Heq.
  apply cell_char_marker, marker_cell_range in Heq. lia.
Qed.

Lemma marker_count_grid : marker_count (grid N) = Z.to_nat (N * N).
Proof.
  unfold marker_count, grid, range.
  assert (Hsplit : seqZ 0 (4 * N + 5) =
            seqZ 0 (3 * N + 4) ++ seqZ (3 * N + 4) N ++ seqZ (4 * N + 4) 1).
  { replace (4 * N + 5) with ((3 * N + 4) + (N + 1)) by lia.
    rewrite seqZ_app by lia. f_equal. rewrite seqZ_app by lia.
    f_equal; f_equal; lia. }
  rewrite Hsplit, !fmap_app, !sum_list_with_app.
  rewrite (sum_list_with_const _ _ 0%nat), (sum_list_with_const _ _ (Z.to_nat N)),
    (sum_list_with_const _ _ 0%nat).
  - rewrite !length_seqZ, Z2Nat.inj_mul by lia. lia.
  - apply Forall_seqZ. intros r Hr. apply count_line_plain. lia.
  - apply Forall_seqZ. intros r Hr. apply count_line_marker. lia.
  - apply Forall_seqZ. intros r Hr. apply count_line_plain. lia.
Qed.

End Rule.

(** ** Facts about the board and the store history *)

Lemma length_full_board (N : Z) : length (full_board N) = Z.to_nat (4 * N + 5).
Proof. unfold full_board, range. now rewrite length_fmap, length_seqZ. Qed.

Lemma lookup_full_board (N r : Z) :
  0 <= r < 4 * N + 5 ->
  full_board N !! Z.to_nat r =
  Some (Some <$> ((fun c => cell_text N r c) <$> range (4 * N + 5))).
Proof.
  intros Hr. unfold full_board, row_cells, range.
  rewrite list_lookup_fmap, lookup_seqZ_lt by lia. simpl.
  rewrite <- list_fmap_compose.
  replace (0 + Z.of_nat (Z.to_nat r)) with r by lia. reflexivity.
Qed.

Lemma elem_of_row_major (rows cols i j : nat) :
  (i, j) ∈ row_major rows cols <-> (i < rows)%nat /\ (j < cols)%nat.
Proof.
  unfold row_major. rewrite list_elem_of_bind. split.
  - intros (k & Hin & Hk). apply list_elem_of_fmap in Hin as (j' & Heq & Hj').
    injection Heq as -> ->. apply elem_of_seq in Hk, Hj'. lia.
  - intros [Hi Hj]. exists i. split.
    + apply list_elem_of_fmap. exists j. split; [reflexivity|]. apply elem_of_seq. lia.
    + apply elem_of_seq. lia.
Qed.

Lemma NoDup_row_major (rows cols : nat) : NoDup (row_major rows cols).
Proof.
  unfold row_major. apply NoDup_bind.
  - intros i1 i2 [i j] _ _ H1 H2.
    apply list_elem_of_fmap in H1 as (? & H1 & _).
    apply list_elem_of_fmap in H2 as (? & H2 & _). congruence.
  - intros i _. apply NoDup_fmap_2; [|apply NoDup_seq]. intros j1 j2. congruence.
  - apply NoDup_seq.
Qed.

(** ** The properties of the renderer *)

(** C3.  For every [N >= 0] a run from the initial state completes and has
    written [B = 4N + 5] lines; every line has [B] characters, and the
    character at line [r], column [c] is the one the per-cell rule of
    section 4.1 of the specification gives. *)
Theorem render_prints_square (N : Z) :
  0 <= N ->
  exists s', render N init = Done tt s' /\
    length (stdout s') = Z.to_nat (4 * N + 5) /\
    forall r, 0 <= r < 4 * N + 5 ->
      exists l, stdout s' !! Z.to_nat r = Some l /\
        String.length l = Z.to_nat (4 * N + 5) /\
        forall c, 0 <= c < 4 * N + 5 ->
          String.get (Z.to_nat c) l = Some (rule_4_1 N r c).
Proof.
  intros HN. destruct (render_run N ltac:(lia) init) as [rw Hrun].
  eexists. split; [exact Hrun|]. simpl. split; [apply length_grid|].
  intros r Hr. exists (line N (4 * N + 5) r).
  split; [now apply lookup_grid|]. split; [apply length_line|].
  intros c Hc. rewrite get_line by exact Hc. now rewrite cell_char_rule.
Qed.

(** For [N = 2]: thirteen lines of thirteen characters. *)
Lemma render_prints_square_two :
  exists s', render 2 init = Done tt s' /\
    length (stdout s') = 13%nat /\
    forall r, 0 <= r < 13 ->
      exists l, stdout s' !! Z.to_nat r = Some l /\
        String.length l = 13%nat /\
        forall c, 0 <= c < 13 -> String.get (Z.to_nat c) l = Some (rule_4_1 2 r c).
Proof. apply (render_prints_square 2). lia. Defined.

(** C4.  For every [N >= 0], every character of an output line [r] with
    [r mod (N + 1) = 0] is ['+'] or ['-']. *)
Theorem separator_lines_plus_minus (N r : Z) :
  0 <= N -> 0 <= r < 4 * N + 5 -> r mod (N + 1) = 0 ->
  exists out l, printed N = Some out /\ out !! Z.to_nat r = Some l /\
    Forall (fun ch => ch = "+"%char \/ ch = "-"%char) (list_ascii_of_string l).
Proof.
  intros HN Hr Hsep. exists (grid N), (line N (4 * N + 5) r).
  split; [apply printed_grid; lia|]. split; [now apply lookup_grid|].
  rewrite chars_line. apply Forall_fmap, Forall_forall. intros c _. simpl.
  now apply cell_char_separator.
Qed.

Lemma separator_lines_plus_minus_two :
  exists out l, printed 2 = Some out /\ out !! 3%nat = Some l /\
    Forall (fun ch => ch = "+"%char \/ ch = "-"%char) (list_ascii_of_string l).
Proof. apply (separator_lines_plus_minus 2 3); [lia | lia | reflexivity]. Defined.

(** C5.  For every [N >= 0], an output line [r] with [r mod (N + 1) <> 0] has
    [B] characters, the first and the last of which are ['|'], and has ['|']
    at every column [c] with [c mod (N + 1) = 0]. *)
Theorem content_lines_bars (N r : Z) :
  0 <= N -> 0 <= r < 4 * N + 5 -> r mod (N + 1) <> 0 ->
  exists out l, printed N = Some out /\ out !! Z.to_nat r = Some l /\
    String.length l = Z.to_nat (4 * N + 5) /\
    String.get 0 l = Some "|"%char /\
    String.get (Z.to_nat (4 * N + 5) - 1) l = Some "|"%char /\
    forall c, 0 <= c < 4 * N + 5 -> c mod (N + 1) = 0 ->
      String.get (Z.to_nat c) l = Some "|"%char.
Proof.
  intros HN Hr Hrow. exists (grid N), (line N (4 * N + 5) r).
  assert (Hbar : forall c, 0 <= c < 4 * N + 5 -> c mod (N + 1) = 0 ->
            String.get (Z.to_nat c) (line N (4 * N + 5) r) = Some "|"%char).
  { intros c Hc Hcol. rewrite get_line by exact Hc.
    now rewrite cell_char_border by assumption. }
  split; [apply printed_grid; lia|]. split; [now apply lookup_grid|].
  split; [apply length_line|]. split; [|split; [|exact Hbar]].
  - apply (Hbar 0); [lia|]. apply Z.mod_0_l. lia.
  - replace (Z.to_nat (4 * N + 5) - 1)%nat with (Z.to_nat (4 * N + 4)) by lia.
    apply Hbar; [lia|]. replace (4 * N + 4) with (4 * (N + 1)) by lia.
    apply Z.mod_mul. lia.
Qed.

Lemma content_lines_bars_two :
  exists out l, printed 2 = Some out /\ out !! 1%nat = Some l /\
    String.length l = 13%nat /\
    String.get 0 l = Some "|"%char /\
    String.get 12 l = Some "|"%char /\
    forall c, 0 <= c < 13 -> c mod 3 = 0 -> String.get (Z.to_nat c) l = Some "|"%char.
Proof. apply (content_lines_bars 2 1); [lia | lia | discriminate]. Defined.

(** C6.  For [N = 0] the run completes without a fault and prints five lines
    of five characters, all of them ['+'] (so only border characters). *)
Theorem render_zero :
  exists s', render 0 init = Done tt s' /\
    stdout s' = ["+++++"; "+++++"; "+++++"; "+++++"; "+++++"]%string /\
    Forall (fun l => String.length l = 5%nat /\
              Forall (fun ch => ch = "+"%char \/ ch = "-"%char) (list_ascii_of_string l))
           (stdout s').
Proof.
  eexists. split; [vm_compute; reflexivity|]. split; [reflexivity|].
  simpl. repeat (constructor; [split; [reflexivity | repeat constructor; now left] |]).
  constructor.
Qed.

(** ** Faults *)

Lemma render_minus_one (s : state) : faults (-1) s.
Proof. unfold faults. eexists. reflexivity. Qed.

Lemma render_completes (N : Z) (s : state) : N <> -1 -> completes N s.
Proof.
  intros HN. destruct (render_run N ltac:(lia) s) as [rw Hrun].
  unfold completes. eexists. exact Hrun.
Qed.

Lemma faults_not_completes (N : Z) (s : state) : faults N s -> completes N s -> False.
Proof. intros [s1 H1] [s2 H2]. congruence. Qed.

(** C7, as stated, fails: with [N = -2] the divisor [N + 1] is negative, yet
    [range(B)] is empty, no cell is computed, and the run completes having
    printed nothing. *)
Lemma render_minus_two_no_fault :
  -2 + 1 <= 0 /\ ~ faults (-2) init /\
  render (-2) init = Done tt init.
Proof.
  split; [lia|]. split; [|reflexivity].
  intros [s' H]. vm_compute in H. discriminate.
Qed.

(** C7, amended.  From any state, a run stops on a division or modulo by zero
    exactly when [N = -1], and completes (raising nothing) exactly when
    [N <> -1].  For [N = -1] it is the first cell that raises: the statement
    of cell [(0, 0)] raises in whatever state it is run, and the run stops
    with the board just built as one row of one empty cell, nothing stored
    and nothing printed.  For [N <= -2] the loops are empty: the run
    completes with an empty board, nothing stored and nothing printed. *)
Theorem render_faults_iff (N : Z) (s : state) :
  (faults N s <-> N = -1) /\
  (completes N s <-> N <> -1) /\
  (N = -1 ->
     (forall s0, cell_stmt N 0 0 s0 = Raised ZeroDivisionError s0) /\
     render N s = Raised ZeroDivisionError
                    {| board := [[None]]; row := EmptyString;
                       stdout := stdout s; stores := stores s |}) /\
  (N <= -2 ->
     range (4 * N + 5) = [] /\
     render N s = Done tt {| board := []; row := row s;
                             stdout := stdout s; stores := stores s |}).
Proof.
  split; [|split; [|split]].
  - destruct (Z.eq_dec N (-1)) as [->|HN].
    + pose proof (render_minus_one s). tauto.
    + split; [|tauto]. intros Hf. exfalso.
      exact (faults_not_completes _ _ Hf (render_completes N s HN)).
  - destruct (Z.eq_dec N (-1)) as [->|HN].
    + split; [|tauto]. intros Hc. exfalso.
      exact (faults_not_completes _ _ (render_minus_one s) Hc).
    + pose proof (render_completes N s HN). tauto.
  - intros ->. split; [intros s0|]; reflexivity.
  - intros HN. assert (Hnil : range (4 * N + 5) = [])
      by (unfold range; apply seqZ_nil; lia).
    split; [exact Hnil|]. unfold render. rewrite Hnil. reflexivity.
Qed.

(** The two edges of the fault condition, from the initial state. *)
Lemma render_faults_iff_edges :
  render (-1) init =
    Raised ZeroDivisionError {| board := [[None]]; row := EmptyString;
                                stdout := []; stores := [] |} /\
  render (-2) init =
    Done tt {| board := []; row := EmptyString; stdout := []; stores := [] |}.
Proof.
  split.
  - destruct (render_faults_iff (-1) init) as (_ & _ & Hone & _).
    apply Hone. reflexivity.
  - destruct (render_faults_iff (-2) init) as (_ & _ & _ & Hneg).
    apply Hneg. lia.
Defined.

(** ** Determinism *)

(** C8.  For every [N >= 0], runs from any two states complete and append the
    same lines to standard output, leave the same board, and the character at
    line [r], column [c] of those lines is [cell_char N r c], a function of
    [r], [c] and [N] alone. *)
Theorem render_deterministic (N : Z) (s1 s2 : state) :
  0 <= N ->
  exists out s1' s2',
    render N s1 = Done tt s1' /\ render N s2 = Done tt s2' /\
    stdout s1' = stdout s1 ++ out /\ stdout s2' = stdout s2 ++ out /\
    board s1' = board s2' /\
    forall r c, 0 <= r < 4 * N + 5 -> 0 <= c < 4 * N + 5 ->
      char_at out r c = Some (cell_char N r c).
Proof.
  intros HN.
  destruct (render_run N ltac:(lia) s1) as [rw1 H1].
  destruct (render_run N ltac:(lia) s2) as [rw2 H2].
  exists (grid N). do 2 eexists.
  split; [exact H1|]. split; [exact H2|]. simpl.
  repeat split. intros r c Hr Hc. now apply char_at_grid.
Qed.

(** A second run of the script, started with the board and the row text a
    first run left behind. *)
Lemma render_deterministic_rerun :
  exists out s1' s2',
    render 2 init = Done tt s1' /\
    render 2 {| board := full_board 2; row := "+--+--+--+--+";
                stdout := []; stores := [] |} = Done tt s2' /\
    stdout s1' = [] ++ out /\ stdout s2' = [] ++ out /\
    board s1' = board s2' /\
    forall r c, 0 <= r < 13 -> 0 <= c < 13 -> char_at out r c = Some (cell_char 2 r c).
Proof.
  apply (render_deterministic 2 init
           {| board := full_board 2; row := "+--+--+--+--+"; stdout := []; stores := [] |}).
  lia.
Defined.

(** ** Board against output *)

(** C9.  For every [N >= 0], after the run every row [r] of the board holds
    [B] strings and no [None], their concatenation is the line printed for
    [r], and the store history has every position [(i, j)] with [i, j < B]
    exactly once and nothing else. *)
Theorem board_matches_output (N : Z) :
  0 <= N ->
  exists s', render N init = Done tt s' /\
    length (board s') = Z.to_nat (4 * N + 5) /\
    (forall r, 0 <= r < 4 * N + 5 ->
       exists texts l,
         board s' !! Z.to_nat r = Some (Some <$> texts) /\
         length texts = Z.to_nat (4 * N + 5) /\
         stdout s' !! Z.to_nat r = Some l /\
         join texts = l) /\
    NoDup (stores s') /\
    forall i j : nat,
      (i, j) ∈ stores s' <-> (i < Z.to_nat (4 * N + 5))%nat /\ (j < Z.to_nat (4 * N + 5))%nat.
Proof.
  intros HN. destruct (render_run N ltac:(lia) init) as [rw Hrun].
  eexists. split; [exact Hrun|]. simpl.
  split; [apply length_full_board|]. split; [|split].
  - intros r Hr.
    exists ((fun c => cell_text N r c) <$> range (4 * N + 5)), (line N (4 * N + 5) r).
    split; [now apply lookup_full_board|].
    split; [unfold range; now rewrite length_fmap, length_seqZ|].
    split; [now apply lookup_grid|].
    unfold cell_text. apply join_texts.
  - apply NoDup_row_major.
  - intros i j. apply elem_of_row_major.
Qed.

Lemma board_matches_output_two :
  exists s', render 2 init = Done tt s' /\
    length (board s') = 13%nat /\
    (forall r, 0 <= r < 13 ->
       exists texts l,
         board s' !! Z.to_nat r = Some (Some <$> texts) /\
         length texts = 13%nat /\
         stdout s' !! Z.to_nat r = Some l /\
         join texts = l) /\
    NoDup (stores s') /\
    forall i j : nat, (i, j) ∈ stores s' <-> (i < 13)%nat /\ (j < 13)%nat.
Proof. apply (board_matches_output 2). lia. Defined.

(** ** Markers *)

Lemma char_at_grid_marker (N r c : Z) :
  0 <= N ->
  char_at (grid N) r c = Some "N"%char <->
  0 <= r < 4 * N + 5 /\ 0 <= c < 4 * N + 5 /\ marker_cell N r c.
Proof.
  intros HN. split.
  - intros H. apply char_at_grid_inv in H as (Hr & Hc & Heq).
    split; [lia|]. split; [lia|]. apply cell_char_marker. now symmetry.
  - intros (Hr & Hc & Hm). rewrite char_at_grid by assumption.
    f_equal. now apply cell_char_marker.
Qed.

(** C10.  For every [N >= 0] the output holds [N * N] marker characters, and
    every cell of block-row 3, block-column 0 that is off the separators
    holds one. *)
Theorem marker_count_square (N : Z) :
  0 <= N ->
  exists out, printed N = Some out /\
    marker_count out = Z.to_nat (N * N) /\
    forall r c, marker_cell N r c -> char_at out r c = Some "N"%char.
Proof.
  intros HN. exists (grid N). split; [apply printed_grid; lia|].
  split; [now apply marker_count_grid|].
  intros r c Hm. apply char_at_grid_marker; [exact HN|].
  pose proof (proj1 (marker_cell_range N HN r c) Hm).
  split; [lia|]. split; [lia | exact Hm].
Qed.

(** For [N = 2]: four markers. *)
Lemma marker_count_square_two :
  exists out, printed 2 = Some out /\
    marker_count out = 4%nat /\
    char_at out 10 1 = Some "N"%char /\ char_at out 10 2 = Some "N"%char /\
    char_at out 11 1 = Some "N"%char /\ char_at out 11 2 = Some "N"%char.
Proof.
  destruct (marker_count_square 2) as (out & Hp & Hn & Hm); [lia|].
  exists out. split; [exact Hp|]. split; [exact Hn|].
  repeat split; apply Hm; unfold marker_cell; repeat split;
    try discriminate; reflexivity.
Defined.

(** C1, as stated, fails: for [N = 2] the output holds four markers, among
    them the two distinct cells [(10, 1)] and [(10, 2)]. *)
Lemma two_has_four_markers :
  exists out, printed 2 = Some out /\
    marker_count out = 4%nat /\ marker_count out <> 1%nat /\
    char_at out 10 1 = Some "N"%char /\ char_at out 10 2 = Some "N"%char.
Proof.
  eexists. split; [vm_compute; reflexivity|].
  repeat split; try reflexivity. discriminate.
Qed.

(** C1, amended.  For every [N >= 1], a cell of the output holds the marker
    exactly when it lies in block-row 3, block-column 0 off the separators,
    and the output holds exactly one marker if and only if [N = 1]. *)
Theorem markers_in_one_block (N : Z) :
  1 <= N ->
  exists out, printed N = Some out /\
    (forall r c, char_at out r c = Some "N"%char <->
                 0 <= r < 4 * N + 5 /\ 0 <= c < 4 * N + 5 /\ marker_cell N r c) /\
    (marker_count out = 1%nat <-> N = 1).
Proof.
  intros HN. exists (grid N). split; [apply printed_grid; lia|].
  split; [intros r c; apply char_at_grid_marker; lia|].
  rewrite marker_count_grid by lia. split.
  - intros H. assert (N * N = 1) by lia. nia.
  - intros ->. reflexivity.
Qed.

Lemma markers_in_one_block_one :
  exists out, printed 1 = Some out /\
    (forall r c, char_at out r c = Some "N"%char <->
                 0 <= r < 9 /\ 0 <= c < 9 /\ marker_cell 1 r c) /\
    (marker_count out = 1%nat <-> 1 = 1).
Proof. apply (markers_in_one_block 1). lia. Defined.

(** ** The first line *)

Lemma first_line_block (n : nat) (k : Z) :
  0 <= k ->
  cell_char (Z.of_nat n) 0 <$> seqZ (k * (Z.of_nat n + 1)) (Z.of_nat n + 1) =
  "+"%char :: replicate n "-"%char.
Proof.
  intros Hk. set (N := Z.of_nat n). assert (HN : 0 <= N) by (unfold N; lia).
  rewrite seqZ_cons by lia. rewrite fmap_cons. f_equal.
  - rewrite cell_char_rule by exact HN. unfold rule_4_1.
    rewrite Z.mod_0_l, Z.mod_mul by lia. reflexivity.
  - symmetry. apply replicate_as_Forall. split.
    + rewrite length_fmap, length_seqZ. lia.
    + apply Forall_fmap, Forall_seqZ. intros c Hc. simpl.
      rewrite cell_char_rule by exact HN. unfold rule_4_1.
      rewrite Z.mod_0_l by lia. simpl.
      replace c with ((c - k * (N + 1)) + k * (N + 1)) by lia.
      rewrite Z.mod_add, Z.mod_small by lia.
      destruct (Z.eqb_spec (c - k * (N + 1)) 0); [lia | reflexivity].
Qed.

Lemma first_line_pattern (n : nat) :
  line (Z.of_nat n) (4 * Z.of_nat n + 5) 0 = separator_pattern n.
Proof.
  unfold line, separator_pattern, row_chars, range. f_equal.
  set (N := Z.of_nat n).
  assert (Hsplit : seqZ 0 (4 * N + 5) =
            seqZ (0 * (N + 1)) (N + 1) ++ seqZ (1 * (N + 1)) (N + 1) ++
            seqZ (2 * (N + 1)) (N + 1) ++ seqZ (3 * (N + 1)) (N + 1) ++
            seqZ (4 * (N + 1)) 1).
  { replace (4 * N + 5) with ((N + 1) + ((N + 1) + ((N + 1) + ((N + 1) + 1)))) by lia.
    rewrite (seqZ_app 0 (N + 1)) by lia.
    rewrite (seqZ_app (0 + (N + 1)) (N + 1)) by lia.
    rewrite (seqZ_app (0 + (N + 1) + (N + 1)) (N + 1)) by lia.
    rewrite (seqZ_app (0 + (N + 1) + (N + 1) + (N + 1)) (N + 1)) by lia.
    repeat (f_equal; try lia). }
  rewrite Hsplit, !fmap_app. unfold N.
  rewrite !first_line_block by lia. do 4 f_equal. fold N.
  rewrite seqZ_cons, seqZ_nil by lia. rewrite fmap_cons. f_equal.
  rewrite cell_char_rule by lia. unfold rule_4_1.
  rewrite Z.mod_0_l, Z.mod_mul by lia. reflexivity.
Qed.

(** C2, as stated, fails: for [N = 2] the first line is not
    [+---+---+---+]. *)
Lemma three_dashes_not_first_line :
  exists out l, printed 2 = Some out /\ out !! 0%nat = Some l /\
    l <> "+---+---+---+"%string.
Proof.
  do 2 eexists. split; [vm_compute; reflexivity|]. split; [reflexivity|]. discriminate.
Qed.

(** C2, amended.  For [N = 2] the first line is [+--+--+--+--+], the instance
    of the pattern of the first line for every extent: ['+'] then [N] dashes,
    four times, then a closing ['+']. *)
Theorem first_line_two :
  (exists out, printed 2 = Some out /\ out !! 0%nat = Some "+--+--+--+--+"%string) /\
  separator_pattern 2 = "+--+--+--+--+"%string /\
  forall n : nat,
    exists out, printed (Z.of_nat n) = Some out /\ out !! 0%nat = Some (separator_pattern n).
Proof.
  split; [|split; [reflexivity|]].
  - eexists. split; [vm_compute; reflexivity | reflexivity].
  - intros n. exists (grid (Z.of_nat n)). split; [apply printed_grid; lia|].
    rewrite <- first_line_pattern. apply (lookup_grid (Z.of_nat n) 0). lia.
Qed.

(** ** The shape of the lines *)

Section Shape.

Variable n : nat.
Local Abbreviation N := (Z.of_nat n).

(** [range(4N + 5)] in blocks: four runs of [N + 1] and the last index. *)
Lemma range_blocks :
  seqZ 0 (4 * N + 5) =
  seqZ (0 * (N + 1)) (N + 1) ++ seqZ (1 * (N + 1)) (N + 1) ++
  seqZ (2 * (N + 1)) (N + 1) ++ seqZ (3 * (N + 1)) (N + 1) ++
  seqZ (4 * (N + 1)) 1.
Proof.
  replace (4 * N + 5) with ((N + 1) + ((N + 1) + ((N + 1) + ((N + 1) + 1)))) by lia.
  rewrite (seqZ_app 0 (N + 1)) by lia.
  rewrite (seqZ_app (0 + (N + 1)) (N + 1)) by lia.
  rewrite (seqZ_app (0 + (N + 1) + (N + 1)) (N + 1)) by lia.
  rewrite (seqZ_app (0 + (N + 1) + (N + 1) + (N + 1)) (N + 1)) by lia.
  repeat (f_equal; try lia).
Qed.

(** Quotient and remainder of an index inside block [k]. *)
Lemma block_div_mod (k c : Z) :
  k * (N + 1) <= c < (k + 1) * (N + 1) ->
  c / (N + 1) = k /\ c mod (N + 1) = c - k * (N + 1).
Proof.
  intros Hc. split; symmetry.
  - apply (Z.div_unique c (N + 1) k (c - k * (N + 1))); lia.
  - apply (Z.mod_unique c (N + 1) k (c - k * (N + 1))); lia.
Qed.

(** A block of [N + 1] items mapped by [f]: the image of its first index,
    then [n] copies of the common image of the others. *)
Lemma block_image {A} (f : Z -> A) (k : Z) (edge fill : A) :
  f (k * (N + 1)) = edge ->
  (forall c, k * (N + 1) < c < (k + 1) * (N + 1) -> f c = fill) ->
  f <$> seqZ (k * (N + 1)) (N + 1) = edge :: replicate n fill.
Proof.
  intros He Hf. rewrite seqZ_cons by lia. rewrite fmap_cons, He. f_equal.
  symmetry. apply replicate_as_Forall. split.
  - rewrite length_fmap, length_seqZ. lia.
  - apply Forall_fmap, Forall_seqZ. intros c Hc. simpl. symmetry. apply Hf. lia.
Qed.

(** A line whose border columns hold [edge] and whose block [k] holds
    [fill k] throughout. *)
Lemma line_blocks (r : Z) (edge : ascii) (fill : Z -> ascii) :
  (forall c, c mod (N + 1) = 0 -> cell_char N r c = edge) ->
  (forall k c, 0 <= k < 4 -> k * (N + 1) < c < (k + 1) * (N + 1) ->
               cell_char N r c = fill k) ->
  line N (4 * N + 5) r =
  string_of_list_ascii
    ((edge :: replicate n (fill 0)) ++ (edge :: replicate n (fill 1)) ++
     (edge :: replicate n (fill 2)) ++ (edge :: replicate n (fill 3)) ++ [edge]).
Proof.
  intros He Hf. unfold line, row_chars, range. f_equal.
  rewrite range_blocks, !fmap_app.
  rewrite (block_image _ 0 edge (fill 0)), (block_image _ 1 edge (fill 1)),
    (block_image _ 2 edge (fill 2)), (block_image _ 3 edge (fill 3));
    try (apply He, Z.mod_mul; lia); try (intros c Hc; apply Hf; lia).
  do 4 f_equal. rewrite seqZ_cons, seqZ_nil by lia. rewrite fmap_cons. f_equal.
  apply He, Z.mod_mul. lia.
Qed.

Lemma line_separator (r : Z) :
  r mod (N + 1) = 0 -> line N (4 * N + 5) r = separator_pattern n.
Proof.
  intros Hr. unfold separator_pattern.
  apply (line_blocks r "+"%char (fun _ => "-"%char)).
  - intros c Hc. unfold cell_char. rewrite Hr, Hc. reflexivity.
  - intros k c Hk Hc. unfold cell_char. rewrite Hr. simpl.
    destruct (block_div_mod k c ltac:(lia)) as [_ ->].
    replace (c - k * (N + 1) >? 0) with true; [reflexivity|].
    symmetry. apply Z.gtb_lt. lia.
Qed.

Lemma line_content (r : Z) :
  r mod (N + 1) <> 0 ->
  line N (4 * N + 5) r = content_pattern n (r / (N + 1) =? 3).
Proof.
  intros Hr. unfold content_pattern.
  rewrite (line_blocks r "|"%char
             (fun k => if (r / (N + 1) =? 3) && (k =? 0) then "N"%char else " "%char)).
  - destruct (r / (N + 1) =? 3); reflexivity.
  - intros c Hc. apply cell_char_border; assumption.
  - intros k c Hk Hc. unfold cell_char.
    destruct (block_div_mod k c ltac:(lia)) as [-> Hm]. rewrite Hm.
    destruct (Z.eqb_spec (r mod (N + 1)) 0); [contradiction|].
    destruct (Z.eqb_spec (c - k * (N + 1)) 0); [lia | reflexivity].
Qed.

(** The lines of block-row [k]: the separator line, then [n] content lines,
    marked when [k = 3]. *)
Lemma band_lines (k : Z) :
  0 <= k ->
  line N (4 * N + 5) <$> seqZ (k * (N + 1)) (N + 1) = band n (k =? 3).
Proof.
  intros Hk. unfold band. apply block_image.
  - apply line_separator, Z.mod_mul. lia.
  - intros r Hr. destruct (block_div_mod k r ltac:(lia)) as [Hd Hm].
    rewrite line_content by lia. now rewrite Hd.
Qed.

Lemma grid_banded : grid N = banded_grid n.
Proof.
  unfold grid, banded_grid, range. rewrite range_blocks, !fmap_app.
  rewrite !band_lines by lia. simpl (_ =? 3). do 4 f_equal.
  rewrite seqZ_cons, seqZ_nil by lia. rewrite fmap_cons. f_equal.
  apply line_separator, Z.mod_mul. lia.
Qed.

End Shape.

(** ** Counting characters in the patterns *)

Lemma count_char_replicate (ch a : ascii) (k : nat) :
  count_char ch (string_of_list_ascii (replicate k a)) =
  if Ascii.eqb a ch then k else 0%nat.
Proof.
  induction k as [|k IH]; simpl; [now destruct (Ascii.eqb a ch)|].
  rewrite IH. now destruct (Ascii.eqb a ch).
Qed.

Lemma char_count_replicate (ch : ascii) (l : string) (k : nat) :
  char_count ch (replicate k l) = (k * count_char ch l)%nat.
Proof.
  unfold char_count. induction k as [|k IH]; simpl; [reflexivity | now rewrite IH].
Qed.

Lemma count_char_block (ch a b : ascii) (k : nat) (l : list ascii) :
  count_char ch (string_of_list_ascii ((a :: replicate k b) ++ l)) =
  ((if Ascii.eqb a ch then 1 else 0) + (if Ascii.eqb b ch then k else 0) +
   count_char ch (string_of_list_ascii l))%nat.
Proof.
  rewrite count_char_chars_app. cbn [string_of_list_ascii count_char].
  now rewrite count_char_replicate.
Qed.

Lemma char_count_banded (ch : ascii) (n : nat) :
  char_count ch (banded_grid n) =
  (5 * count_char ch (separator_pattern n) +
   3 * n * count_char ch (content_pattern n false) +
   n * count_char ch (content_pattern n true))%nat.
Proof.
  unfold banded_grid, band, char_count. rewrite !sum_list_with_app.
  cbn [sum_list_with]. fold (char_count ch (replicate n (content_pattern n false))).
  fold (char_count ch (replicate n (content_pattern n true))).
  rewrite !char_count_replicate. lia.
Qed.

Lemma census_banded (n : nat) :
  char_count "+" (banded_grid n) = 25%nat /\
  char_count "-" (banded_grid n) = (20 * n)%nat /\
  char_count "|" (banded_grid n) = (20 * n)%nat /\
  char_count "N" (banded_grid n) = (n * n)%nat /\
  char_count " " (banded_grid n) = (15 * n * n)%nat.
Proof.
  rewrite !char_count_banded. unfold separator_pattern, content_pattern. cbv zeta.
  rewrite !count_char_block.
  cbn [string_of_list_ascii count_char Ascii.eqb Bool.eqb].
  repeat split; lia.
Qed.

(** ** More properties of the renderer *)

(** X1.  For every [N >= 0], every output line [r] with [r mod (N + 1) = 0]
    is the same string: ['+'] then [N] dashes, four times, then ['+']. *)
Theorem separator_lines_pattern (N r : Z) :
  0 <= N -> 0 <= r < 4 * N + 5 -> r mod (N + 1) = 0 ->
  exists out, printed N = Some out /\
    out !! Z.to_nat r = Some (separator_pattern (Z.to_nat N)).
Proof.
  intros HN Hr Hsep. exists (grid N). split; [apply printed_grid; lia|].
  rewrite lookup_grid by exact Hr. f_equal.
  remember (Z.to_nat N) as n eqn:Hn.
  assert (HNn : N = Z.of_nat n) by lia. clear Hn. subst N.
  now apply line_separator.
Qed.

Lemma separator_lines_pattern_last :
  exists out, printed 2 = Some out /\ out !! 12%nat = Some "+--+--+--+--+"%string.
Proof. apply (separator_lines_pattern 2 12); [lia | lia | reflexivity]. Defined.

(** X2.  For every [N >= 0], an output line [r] with [r mod (N + 1) <> 0] is
    ['|'] then [N] cells, four times, then ['|']; the cells are blanks, except
    that the first [N] cells are markers when [r div (N + 1) = 3]. *)
Theorem content_lines_pattern (N r : Z) :
  0 <= N -> 0 <= r < 4 * N + 5 -> r mod (N + 1) <> 0 ->
  exists out, printed N = Some out /\
    out !! Z.to_nat r = Some (content_pattern (Z.to_nat N) (r / (N + 1) =? 3)).
Proof.
  intros HN Hr Hrow. exists (grid N). split; [apply printed_grid; lia|].
  rewrite lookup_grid by exact Hr. f_equal.
  remember (Z.to_nat N) as n eqn:Hn.
  assert (HNn : N = Z.of_nat n) by lia. clear Hn. subst N.
  now apply line_content.
Qed.

Lemma content_lines_pattern_marked :
  exists out, printed 2 = Some out /\ out !! 10%nat = Some "|NN|  |  |  |"%string.
Proof. apply (content_lines_pattern 2 10); [lia | lia | discriminate]. Defined.

(** X3.  For every [N >= 0] the output is, in this order: three bands of a
    separator line over [N] unmarked content lines, one band of a separator
    line over [N] marked content lines, and a closing separator line. *)
Theorem printed_banded (N : Z) :
  0 <= N -> printed N = Some (banded_grid (Z.to_nat N)).
Proof.
  intros HN. rewrite printed_grid by lia. f_equal.
  remember (Z.to_nat N) as n eqn:Hn.
  assert (HNn : N = Z.of_nat n) by lia. clear Hn. subst N.
  apply grid_banded.
Qed.

Lemma printed_banded_one :
  printed 1 = Some [ "+-+-+-+-+"; "| | | | |"; "+-+-+-+-+"; "| | | | |";
                     "+-+-+-+-+"; "| | | | |"; "+-+-+-+-+"; "|N| | | |";
                     "+-+-+-+-+" ]%string.
Proof. apply (printed_banded 1). lia. Defined.

(** X4.  For every [N >= 0] the output holds 25 ['+'], [20 N] ['-'],
    [20 N] ['|'], [N * N] markers and [15 N * N] blanks. *)
Theorem printed_census (N : Z) :
  0 <= N ->
  exists out, printed N = Some out /\
    char_count "+" out = 25%nat /\
    char_count "-" out = (20 * Z.to_nat N)%nat /\
    char_count "|" out = (20 * Z.to_nat N)%nat /\
    char_count "N" out = (Z.to_nat N * Z.to_nat N)%nat /\
    char_count " " out = (15 * Z.to_nat N * Z.to_nat N)%nat.
Proof.
  intros HN. exists (banded_grid (Z.to_nat N)). split; [|apply census_banded].
  rewrite printed_grid by lia. f_equal.
  remember (Z.to_nat N) as n eqn:Hn.
  assert (HNn : N = Z.of_nat n) by lia. clear Hn. subst N.
  apply grid_banded.
Qed.

Lemma printed_census_two :
  exists out, printed 2 = Some out /\
    char_count "+" out = 25%nat /\ char_count "-" out = 40%nat /\
    char_count "|" out = 40%nat /\ char_count "N" out = 4%nat /\
    char_count " " out = 60%nat.
Proof. apply (printed_census 2). lia. Defined.

(** X5.  A run that raises, from any state and for any [N], raises a
    division-by-zero error with [N = -1], at the first cell: the board has
    been built as one row of one empty cell, nothing has been stored into it
    and nothing has been printed. *)
Theorem raise_before_output (N : Z) (s s' : state) (e : exn) :
  render N s = Raised e s' ->
  N = -1 /\ e = ZeroDivisionError /\
  board s' = [[None]] /\ stdout s' = stdout s /\ stores s' = stores s.
Proof.
  intros Hrun. destruct (Z.eq_dec N (-1)) as [->|HN].
  - assert (Hone : render (-1) s =
        Raised ZeroDivisionError {| board := [[None]]; row := EmptyString;
                                    stdout := stdout s; stores := stores s |})
      by reflexivity.
    rewrite Hone in Hrun. injection Hrun as <- <-. repeat split.
  - destruct (render_completes N s HN) as [s2 H2]. congruence.
Qed.

Lemma raise_before_output_init :
  -1 = -1 /\ ZeroDivisionError = ZeroDivisionError /\
  board {| board := [[None]]; row := EmptyString; stdout := []; stores := [] |} = [[None]] /\
  stdout {| board := [[None]]; row := EmptyString; stdout := []; stores := [] |} = stdout init /\
  stores {| board := [[None]]; row := EmptyString; stdout := []; stores := [] |} = stores init.
Proof.
  apply (raise_before_output (-1) init
           {| board := [[None]]; row := EmptyString; stdout := []; stores := [] |}
           ZeroDivisionError).
  reflexivity.
Defined.

(** X6.  For every [N <= -2] the extent [4N + 5] is negative: a run from any
    state completes having replaced the board by the empty list and changed
    nothing else (no line printed, no store, [row] untouched). *)
Theorem render_negative_extent (N : Z) (s : state) :
  N <= -2 ->
  render N s = Done tt {| board := []; row := row s; stdout := stdout s; stores := stores s |}.
Proof.
  intros HN. unfold render, range. rewrite seqZ_nil by lia. reflexivity.
Qed.

Lemma render_negative_extent_minus_five :
  render (-5) init = Done tt {| board := []; row := row init;
                                stdout := stdout init; stores := stores init |}.
Proof. apply (render_negative_extent (-5) init). lia. Defined.

(** X7.  The script as it stands ([N = 2]) completes and prints these
    thirteen lines. *)
Theorem main_output :
  exists s', main init = Done tt s' /\
    stdout s' = [ "+--+--+--+--+"; "|  |  |  |  |"; "|  |  |  |  |";
                  "+--+--+--+--+"; "|  |  |  |  |"; "|  |  |  |  |";
                  "+--+--+--+--+"; "|  |  |  |  |"; "|  |  |  |  |";
                  "+--+--+--+--+"; "|NN|  |  |  |"; "|NN|  |  |  |";
                  "+--+--+--+--+" ]%string.
Proof. eexists. split; [vm_compute; reflexivity | reflexivity]. Qed.
